(** * faster_whisper_transcribe.py: a shallow embedding and its properties

    The script [scripts/faster_whisper_transcribe.py] is a thin wrapper
    around the [faster_whisper] library: it checks its command line and
    the existence of the audio file, builds one [WhisperModel], issues
    one [transcribe] call, strips and joins the texts of the segments
    and prints the transcript.

    The embedding keeps the structure of the script:
    - Python strings are lists of Unicode code points ([pystr]), with
      [str.strip] and [str.join] written out;
    - the library is an explicit parameter ([Runtime]) saying what the
      import, the constructor, the [transcribe] method and the lazy
      segment generator do (return or raise);
    - [print], [sys.exit], [try]/[except] and the calls into the
      library live in a small state-and-exception monad [M] over a
      [world] holding both output streams and the log of library calls. *)

From Stdlib Require Import List NArith ZArith String Ascii Bool Lia.
Import ListNotations.

Set Implicit Arguments.

(* ================================================================= *)
(** ** Python strings *)

Module PyStr.

(** A Python [str] is a sequence of code points. *)
Definition pystr := list N.

(** A literal of the script, read as code points. *)
Definition py (s : string) : pystr :=
  map N_of_ascii (list_ascii_of_string s).
Arguments py s%_string.

(** [str.isspace] on one code point, the test used by [str.strip()]
    without argument: the characters Python treats as whitespace. *)
Definition isspace (c : N) : bool :=
  ((9 <=? c) && (c <=? 13)           (* \t \n \v \f \r *)
   || (28 <=? c) && (c <=? 32)       (* FS GS RS US and the space *)
   || (c =? 133)                     (* U+0085 *)
   || (c =? 160)                     (* U+00A0 *)
   || (c =? 5760)                    (* U+1680 *)
   || (8192 <=? c) && (c <=? 8202)   (* U+2000 .. U+200A *)
   || (c =? 8232) || (c =? 8233)     (* U+2028 U+2029 *)
   || (c =? 8239)                    (* U+202F *)
   || (c =? 8287)                    (* U+205F *)
   || (c =? 12288))%N.               (* U+3000 *)

(** Drop the longest prefix of whitespace. *)
Fixpoint lstrip (s : pystr) : pystr :=
  match s with
  | [] => []
  | c :: rest => if isspace c then lstrip rest else s
  end.

(** Drop the longest suffix of whitespace. *)
Definition rstrip (s : pystr) : pystr := rev (lstrip (rev s)).

(** [s.strip()]: scan from the left past the whitespace, then from the
    right down to that position. *)
Definition strip (s : pystr) : pystr := rstrip (lstrip s).

(** [sep.join(parts)]. *)
Fixpoint join (sep : pystr) (parts : list pystr) : pystr :=
  match parts with
  | [] => []
  | p :: rest =>
      match rest with
      | [] => p
      | _ :: _ => p ++ sep ++ join sep rest
      end
  end.

(** Every character is whitespace. *)
Definition all_space (s : pystr) : bool := forallb isspace s.

(** The first, respectively the last, character is whitespace. *)
Definition leading_space (s : pystr) : bool :=
  match s with
  | [] => false
  | c :: _ => isspace c
  end.

Definition trailing_space (s : pystr) : bool := leading_space (rev s).

(** [needle] is a prefix of [s]. *)
Fixpoint starts_with (needle s : pystr) : bool :=
  match needle, s with
  | [], _ => true
  | _ :: _, [] => false
  | a :: needle', b :: s' => (a =? b)%N && starts_with needle' s'
  end.

(** [needle in s]: [needle] occurs in [s] as a contiguous run. *)
Fixpoint contains (needle s : pystr) : bool :=
  starts_with needle s
  || match s with
     | [] => false
     | _ :: s' => contains needle s'
     end.

End PyStr.
Export PyStr.

(* ================================================================= *)
(** ** Exceptions, output streams and the monad of the script *)

Module Py.

(** The only distinction the script makes between exceptions is the
    one its [except] clauses make: [ImportError] (and its subclasses,
    such as [ModuleNotFoundError]), any other subclass of [Exception],
    and what derives from [BaseException] only ([KeyboardInterrupt],
    [GeneratorExit], a [SystemExit] raised by the library). *)
Inductive exc_class : Type :=
| ImportError
| OtherException
| BaseExceptionOnly.

(** A raised exception: its class and [str(e)]. *)
Record pyexc : Type := { exc_type : exc_class; exc_str : pystr }.

(** What an external call does. *)
Inductive outcome (A : Type) : Type :=
| Returns (a : A)
| Raises (e : pyexc).
Arguments Returns {A} a.
Arguments Raises {A} e.

(** How a computation of the script ends: with a value, with the
    [SystemExit] of [sys.exit(code)], or with another exception. *)
Inductive result (A : Type) : Type :=
| Value (a : A)
| SystemExit (code : Z)
| Exception (e : pyexc).
Arguments Value {A} a.
Arguments SystemExit {A} code.
Arguments Exception {A} e.

End Py.
Export Py.

(* ================================================================= *)
(** ** The interface of the [faster_whisper] library *)

Module FasterWhisper.

(** A segment, of which the script reads the [text] attribute only. *)
Record Segment : Type := { text : pystr }.

(** The lazy sequence of segments returned by [transcribe]: a generator
    that yields finitely many segments and then either stops or raises
    (the library decodes while the generator is consumed). *)
Record SegmentGenerator : Type := {
  yields : list Segment;
  finally_raises : option pyexc
}.

(** The arguments of [WhisperModel(...)] as the script passes them. *)
Record WhisperModelArgs : Type := {
  model_size_or_path : pystr;
  device : pystr;
  compute_type : pystr
}.

(** The arguments of [model.transcribe(...)] as the script passes them.
    In the library [language=None] asks for language detection. *)
Record TranscribeArgs : Type := {
  audio : pystr;
  language : option pystr;
  beam_size : Z;
  best_of : Z;
  vad_filter : bool;
  vad_parameters : list (pystr * Z)
}.

(** A constructed model: its [transcribe] method returns the pair
    [(segments, info)]; [info] is not used by the script. *)
Record Model : Type := {
  transcribe : TranscribeArgs -> outcome (SegmentGenerator * unit)
}.

(** The environment of one run: what [from faster_whisper import
    WhisperModel] does and, when it succeeds, what the class does when
    called. *)
Record Runtime : Type := {
  import_WhisperModel : outcome (WhisperModelArgs -> outcome Model)
}.

(** The calls into the library, as the script performs them. *)
Inductive call : Type :=
| CallImport
| CallWhisperModel (args : WhisperModelArgs)
| CallTranscribe (args : TranscribeArgs).

End FasterWhisper.
Export FasterWhisper.

(* ================================================================= *)
(** ** The monad *)

Module Monad.

(** What a run can change: the two output streams and the log of
    library calls. *)
Record world : Type := {
  stdout : pystr;
  stderr : pystr;
  calls : list call
}.

Definition initial_world : world :=
  {| stdout := []; stderr := []; calls := [] |}.

Definition M (A : Type) : Type := world -> result A * world.

Definition ret {A} (a : A) : M A := fun w => (Value a, w).

Definition bind {A B} (m : M A) (k : A -> M B) : M B :=
  fun w =>
    match m w with
    | (Value a, w') => k a w'
    | (SystemExit code, w') => (SystemExit code, w')
    | (Exception e, w') => (Exception e, w')
    end.

Definition raise {A} (e : pyexc) : M A := fun w => (Exception e, w).

(** [sys.exit(code)] raises [SystemExit], which no clause of the script
    catches. *)
Definition sys_exit {A} (code : Z) : M A := fun w => (SystemExit code, w).

(** [print(s)]. *)
Definition print (s : pystr) : M unit :=
  fun w => (Value tt,
            {| stdout := stdout w ++ s ++ [10%N];
               stderr := stderr w;
               calls := calls w |}).

(** [print(s, file=sys.stderr)]. *)
Definition print_stderr (s : pystr) : M unit :=
  fun w => (Value tt,
            {| stdout := stdout w;
               stderr := stderr w ++ s ++ [10%N];
               calls := calls w |}).

(** A call into the library: logged, then its outcome. *)
Definition extern {A} (c : call) (o : outcome A) : M A :=
  fun w =>
    let w' := {| stdout := stdout w; stderr := stderr w;
                 calls := calls w ++ [c] |} in
    match o with
    | Returns a => (Value a, w')
    | Raises e => (Exception e, w')
    end.

(** [try: body except ...]: [handler e] is the first clause matching
    [e], if any.  A [SystemExit] of the body is not an exception any
    clause of the script matches. *)
Definition try_except {A} (body : M A) (handler : pyexc -> option (M A))
  : M A :=
  fun w =>
    match body w with
    | (Exception e, w') =>
        match handler e with
        | Some h => h w'
        | None => (Exception e, w')
        end
    | r => r
    end.

End Monad.
Export Monad.

Declare Scope py_scope.
Delimit Scope py_scope with py.
Notation "x <- m ;; k" := (bind m (fun x => k))
  (at level 61, m at next level, right associativity) : py_scope.
Notation "m ;; k" := (bind m (fun _ => k))
  (at level 61, right associativity) : py_scope.

(* ================================================================= *)
(** ** The script *)

Module Script.

Local Open Scope py_scope.

(** [for segment in segments: transcript_parts.append(segment.text.strip())],
    on a generator that has still [todo] to yield. *)
Fixpoint collect (todo : list Segment) (stop : option pyexc)
  (transcript_parts : list pystr) : M (list pystr) :=
  match todo with
  | [] =>
      match stop with
      | None => ret transcript_parts
      | Some e => raise e
      end
  | segment :: rest =>
      collect rest stop (transcript_parts ++ [strip (text segment)])
  end.

Definition msg_not_installed : pystr :=
  py "Error: faster_whisper not installed. Install with: pip install faster-whisper".

Definition msg_transcribing (e : pyexc) : pystr :=
  py "Error transcribing audio: " ++ exc_str e.

(** The two [except] clauses, in the order of the script. *)
Definition handlers (e : pyexc) : option (M pystr) :=
  match exc_type e with
  | ImportError =>
      Some (print_stderr msg_not_installed ;; sys_exit 1)
  | OtherException =>
      Some (print_stderr (msg_transcribing e) ;; sys_exit 1)
  | BaseExceptionOnly => None
  end.

Definition model_args (model_size : pystr) : WhisperModelArgs :=
  {| model_size_or_path := model_size;
     device := py "cpu";
     compute_type := py "int8" |}.

Definition transcribe_args (audio_path language : pystr) : TranscribeArgs :=
  {| audio := audio_path;
     language := Some language;
     beam_size := 1;
     best_of := 1;
     vad_filter := true;
     vad_parameters := [(py "min_silence_duration_ms", 500%Z)] |}.

Definition transcribe_audio (rt : Runtime)
  (audio_path model_size language : pystr) : M pystr :=
  try_except
    (WhisperModel <- extern CallImport (import_WhisperModel rt) ;;
     model <- extern (CallWhisperModel (model_args model_size))
                     (WhisperModel (model_args model_size)) ;;
     r <- extern (CallTranscribe (transcribe_args audio_path language))
                 (transcribe model (transcribe_args audio_path language)) ;;
     let segments := fst r in
     transcript_parts <-
       collect (yields segments) (finally_raises segments) [] ;;
     ret (strip (join (py " ") transcript_parts)))
    handlers.

Definition usage : list pystr :=
  [ py "Usage: python3 faster_whisper_transcribe.py <audio_file> [model_size] [language]";
    py "  model_size: tiny, base, small, medium, large-v2 (default: base)";
    py "  language: en, es, fr, etc. (default: en)" ].

Definition msg_not_found (audio_file : pystr) : pystr :=
  py "Error: Audio file not found: " ++ audio_file.

(** [sys.argv[i]]. *)
Definition argv_item (argv : list pystr) (i : nat) : M pystr :=
  match nth_error argv i with
  | Some a => ret a
  | None => raise {| exc_type := OtherException;
                     exc_str := py "list index out of range" |}
  end.

(** The body under [if __name__ == '__main__'], given [sys.argv] and
    [os.path.exists]. *)
Definition main (argv : list pystr) (path_exists : pystr -> bool)
  (rt : Runtime) : M unit :=
  if (List.length argv <? 2)%nat then
    print_stderr (nth 0 usage []) ;;
    print_stderr (nth 1 usage []) ;;
    print_stderr (nth 2 usage []) ;;
    sys_exit 1
  else
    audio_file <- argv_item argv 1 ;;
    model_size <- (if (2 <? List.length argv)%nat then argv_item argv 2
                   else ret (py "base")) ;;
    language <- (if (3 <? List.length argv)%nat then argv_item argv 3
                 else ret (py "en")) ;;
    if negb (path_exists audio_file) then
      print_stderr (msg_not_found audio_file) ;;
      sys_exit 1
    else
      transcript <- transcribe_audio rt audio_file model_size language ;;
      print transcript.

(** How the process ends: an exit status, or an exception nothing
    catches (the interpreter then reports it itself). *)
Inductive status : Type :=
| Exited (code : Z)
| Uncaught (e : pyexc).

Record process : Type := {
  p_stdout : pystr;
  p_stderr : pystr;
  p_status : status;
  p_calls : list call
}.

Definition run (argv : list pystr) (path_exists : pystr -> bool)
  (rt : Runtime) : process :=
  let '(r, w) := main argv path_exists rt initial_world in
  {| p_stdout := stdout w;
     p_stderr := stderr w;
     p_status := match r with
                 | Value _ => Exited 0
                 | SystemExit code => Exited code
                 | Exception e => Uncaught e
                 end;
     p_calls := calls w |}.

(** The transcript as the specification words it: the texts trimmed,
    joined by one space, the whole trimmed once more. *)
Definition spec_transcript (texts : list pystr) : pystr :=
  strip (join (py " ") (map strip texts)).

(** A library that imports, builds a model for any arguments and
    yields segments with the given texts. *)
Definition stub_runtime (texts : list pystr) : Runtime :=
  {| import_WhisperModel :=
       Returns (fun _ =>
         Returns {| transcribe := fun _ =>
           Returns ({| yields := map (fun t => {| text := t |}) texts;
                       finally_raises := None |}, tt) |}) |}.

(** A library that is not installed. *)
Definition missing_runtime : Runtime :=
  {| import_WhisperModel :=
       Raises {| exc_type := ImportError;
                 exc_str := py "No module named 'faster_whisper'" |} |}.

(** A library whose model cannot be built: the constructor raises an
    exception of the given class and description. *)
Definition broken_runtime (c : exc_class) (description : pystr) : Runtime :=
  {| import_WhisperModel :=
       Returns (fun _ =>
         Raises {| exc_type := c; exc_str := description |}) |}.

End Script.
Export Script.

(* ================================================================= *)
(** ** Vocabulary of the properties *)

Module Props.

(** The library imports, builds the model and answers the
    [transcribe] call of the script with a generator that yields
    exactly [segs] and stops. *)
Definition produces (rt : Runtime) (audio_path model_size language : pystr)
  (segs : list Segment) : Prop :=
  exists cls m info,
    import_WhisperModel rt = Returns cls
    /\ cls (model_args model_size) = Returns m
    /\ transcribe m (transcribe_args audio_path language)
       = Returns ({| yields := segs; finally_raises := None |}, info).

(** The library imports, and [e] is raised by the construction of the
    model, by the [transcribe] call, or by the generator while the
    script consumes it. *)
Definition transcription_raises (rt : Runtime)
  (audio_path model_size language : pystr) (e : pyexc) : Prop :=
  exists cls,
    import_WhisperModel rt = Returns cls
    /\ (cls (model_args model_size) = Raises e
        \/ exists m,
             cls (model_args model_size) = Returns m
             /\ (transcribe m (transcribe_args audio_path language) = Raises e
                 \/ exists g info,
                      transcribe m (transcribe_args audio_path language)
                      = Returns (g, info)
                      /\ finally_raises g = Some e)).

(** The model constructions, respectively the inference calls, of a
    log, in order. *)
Fixpoint sessions (cs : list call) : list WhisperModelArgs :=
  match cs with
  | [] => []
  | CallWhisperModel a :: rest => a :: sessions rest
  | _ :: rest => sessions rest
  end.

Fixpoint inferences (cs : list call) : list TranscribeArgs :=
  match cs with
  | [] => []
  | CallTranscribe a :: rest => a :: inferences rest
  | _ :: rest => inferences rest
  end.

(** The calls one invocation of [transcribe_audio] adds to the log. *)
Definition calls_of (rt : Runtime) (audio_path model_size language : pystr)
  : list call :=
  calls (snd (transcribe_audio rt audio_path model_size language
                initial_world)).

(** The values [main] gives to [model_size] and [language]. *)
Definition arg_model_size (argv : list pystr) : pystr :=
  if (2 <? List.length argv)%nat then nth 2 argv [] else py "base".

Definition arg_language (argv : list pystr) : pystr :=
  if (3 <? List.length argv)%nat then nth 3 argv [] else py "en".

(** What the script writes for its usage message. *)
Definition usage_text : pystr :=
  nth 0 usage [] ++ [10%N] ++ nth 1 usage [] ++ [10%N]
  ++ nth 2 usage [] ++ [10%N].

(** The same world with more in its log, and with more on its standard
    error too. *)
Definition logged (w : world) (cs : list call) : world :=
  {| stdout := stdout w; stderr := stderr w; calls := calls w ++ cs |}.

Definition after (w : world) (err : pystr) (cs : list call) : world :=
  {| stdout := stdout w; stderr := stderr w ++ err; calls := calls w ++ cs |}.

(** One invocation constructs exactly one model, for CPU execution and
    int8 computation, and issues exactly one inference call, with beam
    size 1, best-of 1, the VAD filter with 500 ms of minimum silence and
    the language it was given. *)
Definition one_session_one_inference (rt : Runtime)
  (audio_path model_size language : pystr) : Prop :=
  sessions (calls_of rt audio_path model_size language)
  = [ {| model_size_or_path := model_size;
         device := py "cpu";
         compute_type := py "int8" |} ]
  /\ inferences (calls_of rt audio_path model_size language)
     = [ {| audio := audio_path;
            language := Some language;
            beam_size := 1;
            best_of := 1;
            vad_filter := true;
            vad_parameters := [(py "min_silence_duration_ms", 500%Z)] |} ].

(** The three calls of one invocation that runs to its end. *)
Definition all_calls (audio_path model_size language : pystr) : list call :=
  [CallImport;
   CallWhisperModel (model_args model_size);
   CallTranscribe (transcribe_args audio_path language)].

(** [e] is raised somewhere under the [try]: by the import, by the
    construction of the model, by the [transcribe] call or by the
    generator while it is consumed; [cs] are the calls made until then. *)
Definition raised_in_try (rt : Runtime)
  (audio_path model_size language : pystr) (e : pyexc) (cs : list call)
  : Prop :=
  (import_WhisperModel rt = Raises e /\ cs = [CallImport])
  \/ exists cls,
       import_WhisperModel rt = Returns cls
       /\ ((cls (model_args model_size) = Raises e
            /\ cs = [CallImport; CallWhisperModel (model_args model_size)])
           \/ exists m,
                cls (model_args model_size) = Returns m
                /\ cs = all_calls audio_path model_size language
                /\ (transcribe m (transcribe_args audio_path language)
                    = Raises e
                    \/ exists g info,
                         transcribe m (transcribe_args audio_path language)
                         = Returns (g, info)
                         /\ finally_raises g = Some e)).

(** What the process is once [transcribe_audio] has ended with [r] in
    the world [w]: a value is printed, anything else ends the run. *)
Definition finish (r : result pystr) (w : world) : process :=
  match r with
  | Value transcript =>
      {| p_stdout := stdout w ++ transcript ++ [10%N];
         p_stderr := stderr w;
         p_status := Exited 0;
         p_calls := calls w |}
  | SystemExit code =>
      {| p_stdout := stdout w; p_stderr := stderr w;
         p_status := Exited code; p_calls := calls w |}
  | Exception e =>
      {| p_stdout := stdout w; p_stderr := stderr w;
         p_status := Uncaught e; p_calls := calls w |}
  end.

(** A library whose generator yields the given texts and then raises. *)
Definition failing_generator_runtime (texts : list pystr) (e : pyexc)
  : Runtime :=
  {| import_WhisperModel :=
       Returns (fun _ =>
         Returns {| transcribe := fun _ =>
           Returns ({| yields := map (fun t => {| text := t |}) texts;
                       finally_raises := Some e |}, tt) |}) |}.

(** A file system in which every path exists, and one in which none does. *)
Definition path_exists_always (path : pystr) : bool := true.

Definition path_exists_never (path : pystr) : bool := false.

End Props.
Export Props.

(* ================================================================= *)
(** ** Facts about [strip] and [join] *)

Module PyStrFacts.

Lemma all_space_app (s t : pystr) :
  all_space (s ++ t) = all_space s && all_space t.
Proof. apply forallb_app. Qed.

Lemma all_space_rev (s : pystr) : all_space (rev s) = all_space s.
Proof.
  induction s as [|c s IH]; [reflexivity|].
  simpl. rewrite all_space_app, IH. simpl.
  rewrite andb_true_r. apply andb_comm.
Qed.

(** [lstrip] splits off a run of whitespace. *)
Lemma lstrip_split (s : pystr) :
  exists l, s = l ++ lstrip s /\ all_space l = true.
Proof.
  induction s as [|c s [l [Hs Hl]]].
  - exists []. split; reflexivity.
  - simpl. destruct (isspace c) eqn:Hc.
    + exists (c :: l). split.
      * simpl. f_equal. exact Hs.
      * simpl. rewrite Hc. exact Hl.
    + exists []. split; reflexivity.
Qed.

Lemma lstrip_leading (s : pystr) : leading_space (lstrip s) = false.
Proof.
  induction s as [|c s IH]; [reflexivity|].
  simpl. destruct (isspace c) eqn:Hc; [exact IH|].
  simpl. exact Hc.
Qed.

Lemma lstrip_nil_iff (s : pystr) : lstrip s = [] <-> all_space s = true.
Proof.
  induction s as [|c s IH]; simpl.
  - split; reflexivity.
  - destruct (isspace c); simpl.
    + exact IH.
    + split; discriminate.
Qed.

(** A string that does not start with whitespace stops [lstrip]. *)
Lemma lstrip_app (a z : pystr) :
  leading_space z = false -> lstrip (a ++ z) = lstrip a ++ z.
Proof.
  intros Hz. induction a as [|c a IH]; simpl.
  - destruct z as [|d z]; [reflexivity|].
    simpl in Hz. simpl. rewrite Hz. reflexivity.
  - destruct (isspace c); [exact IH | reflexivity].
Qed.

Lemma rstrip_split (s : pystr) :
  exists r, s = rstrip s ++ r /\ all_space r = true.
Proof.
  unfold rstrip. destruct (lstrip_split (rev s)) as [l [Hs Hl]].
  exists (rev l). split.
  - rewrite <- rev_app_distr, <- Hs. symmetry. apply rev_involutive.
  - rewrite all_space_rev. exact Hl.
Qed.

Lemma rstrip_trailing (s : pystr) : trailing_space (rstrip s) = false.
Proof.
  unfold trailing_space, rstrip. rewrite rev_involutive.
  apply lstrip_leading.
Qed.

Lemma rstrip_app (z b : pystr) :
  trailing_space z = false -> rstrip (z ++ b) = z ++ rstrip b.
Proof.
  intros Hz. unfold rstrip. rewrite rev_app_distr.
  rewrite lstrip_app by exact Hz.
  rewrite rev_app_distr, rev_involutive. reflexivity.
Qed.

Lemma rstrip_nil_iff (s : pystr) : rstrip s = [] <-> all_space s = true.
Proof.
  unfold rstrip. rewrite <- (all_space_rev s), <- lstrip_nil_iff.
  split; intros H.
  - apply (f_equal (@rev N)) in H. rewrite rev_involutive in H. exact H.
  - rewrite H. reflexivity.
Qed.

Lemma leading_space_app (z b : pystr) :
  z <> [] -> leading_space (z ++ b) = leading_space z.
Proof. destruct z; [congruence | reflexivity]. Qed.

Lemma trailing_space_app (a z : pystr) :
  z <> [] -> trailing_space (a ++ z) = trailing_space z.
Proof.
  intros Hz. unfold trailing_space. rewrite rev_app_distr.
  apply leading_space_app. intros H.
  apply (f_equal (@rev N)) in H. rewrite rev_involutive in H. auto.
Qed.

(** The result of [strip] neither starts nor ends with whitespace. *)
Lemma strip_trailing (s : pystr) : trailing_space (strip s) = false.
Proof. apply rstrip_trailing. Qed.

Lemma strip_leading (s : pystr) : leading_space (strip s) = false.
Proof.
  unfold strip. pose proof (lstrip_leading s) as H.
  destruct (lstrip s) as [|c t]; [reflexivity|].
  simpl in H.
  assert (Hc : trailing_space [c] = false) by (simpl; exact H).
  change (c :: t) with ([c] ++ t).
  rewrite rstrip_app by exact Hc. simpl. exact H.
Qed.

Lemma strip_nil_iff (s : pystr) : strip s = [] <-> all_space s = true.
Proof.
  unfold strip. rewrite rstrip_nil_iff.
  destruct (lstrip_split s) as [l [Hs Hl]].
  split; intros H.
  - rewrite Hs, all_space_app, Hl, H. reflexivity.
  - rewrite Hs, all_space_app, Hl in H. exact H.
Qed.

(** [strip] removes whitespace at both ends and nothing else. *)
Lemma strip_split (s : pystr) :
  exists l r, s = l ++ strip s ++ r
              /\ all_space l = true /\ all_space r = true.
Proof.
  destruct (lstrip_split s) as [l [Hs Hl]].
  destruct (rstrip_split (lstrip s)) as [r [Ht Hr]].
  exists l, r. repeat split; try assumption.
  unfold strip. rewrite <- Ht. exact Hs.
Qed.

(** A non-empty core without whitespace at its ends survives [strip],
    whatever surrounds it. *)
Lemma strip_core (a z b : pystr) :
  z <> [] -> leading_space z = false -> trailing_space z = false ->
  strip (a ++ z ++ b) = lstrip a ++ z ++ rstrip b.
Proof.
  intros Hne Hl Ht. unfold strip.
  rewrite lstrip_app by (rewrite leading_space_app; assumption).
  rewrite app_assoc.
  rewrite rstrip_app by (rewrite trailing_space_app; assumption).
  rewrite <- app_assoc. reflexivity.
Qed.

Lemma join_cons (sep p : pystr) (rest : list pystr) :
  rest <> [] -> join sep (p :: rest) = p ++ sep ++ join sep rest.
Proof. destruct rest; [congruence | reflexivity]. Qed.

(** What [join] puts before a non-empty tail of the list. *)
Lemma join_app (sep : pystr) (ps qs : list pystr) :
  qs <> [] ->
  join sep (ps ++ qs) = List.concat (map (fun p => p ++ sep) ps) ++ join sep qs.
Proof.
  intros Hq. induction ps as [|p ps IH]; [reflexivity|].
  change ((p :: ps) ++ qs) with (p :: (ps ++ qs)).
  rewrite join_cons.
  - rewrite IH. simpl. rewrite <- !app_assoc. reflexivity.
  - destruct ps; simpl; [exact Hq | discriminate].
Qed.

(** What [join] puts after the head of the list. *)
Lemma join_head (sep p : pystr) (rest : list pystr) :
  exists b, join sep (p :: rest) = p ++ b.
Proof.
  destruct rest as [|q rest].
  - exists []. simpl. rewrite app_nil_r. reflexivity.
  - exists (sep ++ join sep (q :: rest)). reflexivity.
Qed.

Lemma starts_with_app (n s : pystr) : starts_with n (n ++ s) = true.
Proof.
  induction n as [|c n IH]; [reflexivity|].
  simpl. rewrite N.eqb_refl. exact IH.
Qed.

Lemma contains_app (n a b : pystr) : contains n (a ++ n ++ b) = true.
Proof.
  induction a as [|c a IH].
  - pose proof (starts_with_app n b) as H. simpl.
    destruct (n ++ b); simpl; rewrite H; reflexivity.
  - simpl. rewrite IH. apply orb_true_r.
Qed.

End PyStrFacts.
Import PyStrFacts.

(* ================================================================= *)
(** ** Facts about the script *)

Module ScriptFacts.

Local Open Scope py_scope.

(** The loop appends the trimmed texts in the order of the generator. *)
Lemma collect_stops (todo : list Segment) (acc : list pystr) (w : world) :
  collect todo None acc w
  = (Value (acc ++ map (fun s => strip (text s)) todo), w).
Proof.
  revert acc. induction todo as [|s todo IH]; intros acc; simpl.
  - rewrite app_nil_r. reflexivity.
  - rewrite IH, <- app_assoc. reflexivity.
Qed.

(** An exception of the generator leaves the loop, whatever was
    collected. *)
Lemma collect_raises (todo : list Segment) (e : pyexc) (acc : list pystr)
  (w : world) :
  collect todo (Some e) acc w = (Exception e, w).
Proof.
  revert acc. induction todo as [|s todo IH]; intros acc; simpl.
  - reflexivity.
  - apply IH.
Qed.

Lemma world_app3 (w : world) (a b c : call) :
  {| stdout := stdout w; stderr := stderr w;
     calls := ((calls w ++ [a]) ++ [b]) ++ [c] |}
  = logged w [a; b; c].
Proof. unfold logged. rewrite <- !app_assoc. reflexivity. Qed.

(** The normal path of [transcribe_audio]. *)
Lemma transcribe_audio_returns rt audio_path model_size language segs w :
  produces rt audio_path model_size language segs ->
  transcribe_audio rt audio_path model_size language w
  = (Value (spec_transcript (map text segs)),
     logged w [CallImport;
               CallWhisperModel (model_args model_size);
               CallTranscribe (transcribe_args audio_path language)]).
Proof.
  intros (cls & m & info & Hi & Hc & Ht).
  unfold transcribe_audio, try_except, bind, extern, ret.
  rewrite Hi. cbn [stdout stderr calls]. rewrite Hc.
  cbn [stdout stderr calls]. rewrite Ht.
  cbn [fst yields finally_raises stdout stderr calls].
  rewrite collect_stops. cbn [app].
  rewrite world_app3. unfold spec_transcript.
  rewrite map_map. reflexivity.
Qed.

(** The [except ImportError] path, when the import itself fails. *)
Lemma transcribe_audio_import_error rt audio_path model_size language e w :
  import_WhisperModel rt = Raises e ->
  exc_type e = ImportError ->
  transcribe_audio rt audio_path model_size language w
  = (SystemExit 1, after w (msg_not_installed ++ [10%N]) [CallImport]).
Proof.
  intros Hi He.
  unfold transcribe_audio, try_except, bind, extern.
  rewrite Hi. unfold handlers. rewrite He. reflexivity.
Qed.

(** The [except Exception] path. *)
Lemma transcribe_audio_raises rt audio_path model_size language e w :
  transcription_raises rt audio_path model_size language e ->
  exc_type e = OtherException ->
  exists cs,
    transcribe_audio rt audio_path model_size language w
    = (SystemExit 1, after w (msg_transcribing e ++ [10%N]) cs)
    /\ (cs = [CallImport; CallWhisperModel (model_args model_size)]
        \/ cs = [CallImport; CallWhisperModel (model_args model_size);
                 CallTranscribe (transcribe_args audio_path language)]).
Proof.
  intros (cls & Hi & H) He.
  unfold transcribe_audio, try_except, bind, extern, ret.
  rewrite Hi. cbn [stdout stderr calls].
  destruct H as [Hc | (m & Hc & H)]; rewrite Hc; cbn [stdout stderr calls].
  - eexists. split; [|left; reflexivity].
    unfold handlers. rewrite He. unfold after, print_stderr, sys_exit.
    cbn [stdout stderr calls]. rewrite <- app_assoc. reflexivity.
  - eexists. split; [|right; reflexivity].
    destruct H as [Ht | (g & info & Ht & Hg)]; rewrite Ht;
      cbn [fst stdout stderr calls].
    + unfold handlers. rewrite He. unfold after, print_stderr, sys_exit.
      cbn [stdout stderr calls]. rewrite <- !app_assoc. reflexivity.
    + rewrite Hg, collect_raises.
      unfold handlers. rewrite He. unfold after, print_stderr, sys_exit.
      cbn [stdout stderr calls]. rewrite <- !app_assoc. reflexivity.
Qed.

(** With less than two elements in [sys.argv] the script prints its
    usage and exits. *)
Lemma main_usage argv path_exists rt w :
  (List.length argv < 2)%nat ->
  main argv path_exists rt w = (SystemExit 1, after w usage_text []).
Proof.
  intros H. unfold main.
  apply Nat.ltb_lt in H. rewrite H.
  unfold bind, print_stderr, sys_exit, after, usage_text.
  cbn [stdout stderr calls]. rewrite app_nil_r, <- !app_assoc.
  reflexivity.
Qed.

(** With an audio file on the command line, [main] is the existence
    check followed by the call of [transcribe_audio]. *)
Lemma main_with_audio_file argv path_exists rt audio_file w :
  nth_error argv 1 = Some audio_file ->
  main argv path_exists rt w
  = if negb (path_exists audio_file)
    then (SystemExit 1, after w (msg_not_found audio_file ++ [10%N]) [])
    else bind (transcribe_audio rt audio_file (arg_model_size argv)
                 (arg_language argv)) print w.
Proof.
  intros H.
  destruct argv as [|a0 [|a1 rest]]; try discriminate.
  injection H as ->.
  assert (Hnf : forall v, (print_stderr (msg_not_found audio_file) ;;
                           sys_exit 1) v
                = (SystemExit (A:=unit) 1,
                   after v (msg_not_found audio_file ++ [10%N]) [])).
  { intros v. unfold bind, print_stderr, sys_exit, after.
    cbn [stdout stderr calls]. rewrite app_nil_r. reflexivity. }
  destruct rest as [|a2 [|a3 rest]];
    unfold main, arg_model_size, arg_language, argv_item, bind, ret;
    cbn [List.length Nat.ltb Nat.leb nth_error nth];
    destruct (negb (path_exists audio_file));
    first [ apply Hnf | reflexivity ].
Qed.

End ScriptFacts.
Import ScriptFacts.

(* ================================================================= *)
(** ** Facts about the transcript *)

Module TranscriptFacts.

Lemma all_space_false_strip (t : pystr) :
  all_space t = false -> strip t <> [].
Proof.
  intros H E. apply strip_nil_iff in E. congruence.
Qed.

(** The trimmed text of any segment occurs in the transcript as it is. *)
Lemma spec_transcript_keeps (pre : list pystr) (t : pystr)
  (post : list pystr) :
  exists l r, spec_transcript (pre ++ t :: post) = l ++ strip t ++ r.
Proof.
  destruct (list_eq_dec N.eq_dec (strip t) []) as [E | Hne].
  - exists (spec_transcript (pre ++ t :: post)), [].
    rewrite E, !app_nil_r. reflexivity.
  - unfold spec_transcript. rewrite map_app. cbn [map].
    rewrite join_app by discriminate.
    destruct (join_head (py " ") (strip t) (map strip post)) as [b Hb].
    rewrite Hb.
    eexists. eexists.
    apply strip_core; [exact Hne | apply strip_leading | apply strip_trailing].
Qed.

(** A whitespace-only text between two texts that are not: both
    separators around its empty trimmed text remain. *)
Lemma spec_transcript_double_space (pre : list pystr) (t1 tw t2 : pystr)
  (post : list pystr) :
  all_space t1 = false -> all_space tw = true -> all_space t2 = false ->
  exists l r,
    spec_transcript (pre ++ [t1; tw; t2] ++ post)
    = l ++ (strip t1 ++ py "  " ++ strip t2) ++ r.
Proof.
  intros H1 Hw H2.
  apply all_space_false_strip in H1. apply all_space_false_strip in H2.
  apply strip_nil_iff in Hw.
  unfold spec_transcript. rewrite map_app. cbn [map app].
  rewrite Hw.
  rewrite join_app by discriminate.
  rewrite join_cons by discriminate.
  rewrite join_cons by discriminate.
  destruct (join_head (py " ") (strip t2) (map strip post)) as [b Hb].
  rewrite Hb. cbn [app].
  replace (strip t1 ++ py " " ++ py " " ++ strip t2 ++ b)
    with ((strip t1 ++ py "  " ++ strip t2) ++ b)
    by (rewrite <- !app_assoc; reflexivity).
  eexists. eexists.
  apply strip_core.
  - destruct (strip t1); [congruence | discriminate].
  - rewrite leading_space_app by exact H1. apply strip_leading.
  - rewrite app_assoc, trailing_space_app by exact H2. apply strip_trailing.
Qed.

End TranscriptFacts.
Import TranscriptFacts.

(* ================================================================= *)
(** ** The transcript returned by [transcribe_audio] *)

(** The stub library produces the segments it was built from. *)
Lemma stub_produces (texts : list pystr) (audio_path model_size language : pystr) :
  produces (stub_runtime texts) audio_path model_size language
    (map (fun t => {| text := t |}) texts).
Proof.
  unfold produces, stub_runtime. cbn.
  eexists. eexists. exists tt. repeat split; reflexivity.
Qed.

(** C1: for every finite sequence of segments produced by the library,
    [transcribe_audio] returns the texts of the segments, each trimmed
    of leading and trailing whitespace, joined in their order by one
    space, the whole trimmed once more; the segments ["Hello"] and
    [" world "] give ["Hello world"]. *)
Theorem transcribe_audio_joins_trimmed_texts :
  forall rt audio_path model_size language segs w,
    produces rt audio_path model_size language segs ->
    fst (transcribe_audio rt audio_path model_size language w)
    = Value (strip (join (py " ") (map strip (map text segs))))
    /\ (map text segs = [py "Hello"; py " world "] ->
        fst (transcribe_audio rt audio_path model_size language w)
        = Value (py "Hello world")).
Proof.
  intros rt audio_path model_size language segs w H.
  rewrite (transcribe_audio_returns w H). cbn [fst].
  split; [reflexivity|].
  intros ->. reflexivity.
Qed.

Lemma transcribe_audio_hello_world :
  produces (stub_runtime [py "Hello"; py " world "])
    (py "sample.wav") (py "base") (py "en")
    [{| text := py "Hello" |}; {| text := py " world " |}]
  /\ fst (transcribe_audio (stub_runtime [py "Hello"; py " world "])
            (py "sample.wav") (py "base") (py "en") initial_world)
     = Value (py "Hello world").
Proof.
  split.
  - exact (stub_produces [py "Hello"; py " world "] _ _ _).
  - exact (proj2 (transcribe_audio_joins_trimmed_texts initial_world
                    (stub_produces [py "Hello"; py " world "]
                       (py "sample.wav") (py "base") (py "en")))
                 eq_refl).
Defined.

(** C2: when the library yields no segment, [transcribe_audio] returns
    normally, with the empty string, and writes nothing; the script then
    prints an empty line and exits with status 0. *)
Theorem no_segment_gives_empty_transcript :
  forall rt audio_path model_size language,
    produces rt audio_path model_size language [] ->
    (forall w,
       transcribe_audio rt audio_path model_size language w
       = (Value [],
          logged w [CallImport;
                    CallWhisperModel (model_args model_size);
                    CallTranscribe (transcribe_args audio_path language)]))
    /\ (forall argv path_exists,
          nth_error argv 1 = Some audio_path ->
          path_exists audio_path = true ->
          arg_model_size argv = model_size ->
          arg_language argv = language ->
          p_status (run argv path_exists rt) = Exited 0
          /\ p_stdout (run argv path_exists rt) = [10%N]
          /\ p_stderr (run argv path_exists rt) = []).
Proof.
  intros rt audio_path model_size language H.
  assert (Hw : forall w,
            transcribe_audio rt audio_path model_size language w
            = (Value [],
               logged w [CallImport;
                         CallWhisperModel (model_args model_size);
                         CallTranscribe
                           (transcribe_args audio_path language)])).
  { intros w. rewrite (transcribe_audio_returns w H). reflexivity. }
  split; [exact Hw|].
  intros argv path_exists Ha He Hm Hl.
  unfold run. rewrite (@main_with_audio_file argv path_exists rt audio_path initial_world Ha), He, Hm, Hl.
  cbn [negb]. unfold bind. rewrite Hw.
  repeat split; reflexivity.
Qed.

Lemma no_segment_gives_empty_transcript_stub :
  produces (stub_runtime []) (py "sample.wav") (py "base") (py "en") []
  /\ transcribe_audio (stub_runtime []) (py "sample.wav") (py "base")
       (py "en") initial_world
     = (Value [],
        logged initial_world
          [CallImport;
           CallWhisperModel (model_args (py "base"));
           CallTranscribe (transcribe_args (py "sample.wav") (py "en"))])
  /\ p_stdout (run [py "prog"; py "sample.wav"] (fun _ => true)
                 (stub_runtime []))
     = [10%N].
Proof.
  pose proof (no_segment_gives_empty_transcript
                (stub_produces [] (py "sample.wav") (py "base") (py "en")))
    as [Hf Hp].
  split; [exact (stub_produces [] _ _ _)|].
  split; [exact (Hf initial_world)|].
  exact (proj1 (proj2 (Hp [py "prog"; py "sample.wav"] (fun _ => true)
                         eq_refl eq_refl eq_refl eq_refl))).
Defined.

(** C3: whatever the segments produced by the library and whatever the
    parameters, the string [transcribe_audio] returns neither starts
    nor ends with whitespace. *)
Theorem transcript_has_no_outer_whitespace :
  forall rt audio_path model_size language segs w,
    produces rt audio_path model_size language segs ->
    exists t,
      fst (transcribe_audio rt audio_path model_size language w) = Value t
      /\ leading_space t = false
      /\ trailing_space t = false.
Proof.
  intros rt audio_path model_size language segs w H.
  exists (spec_transcript (map text segs)).
  rewrite (transcribe_audio_returns w H).
  repeat split.
  - apply strip_leading.
  - apply strip_trailing.
Qed.

Lemma transcript_has_no_outer_whitespace_stub :
  produces (stub_runtime [py "  Testing "; py "one two  "])
    (py "sample.wav") (py "base") (py "en")
    [{| text := py "  Testing " |}; {| text := py "one two  " |}]
  /\ exists t,
       fst (transcribe_audio
              (stub_runtime [py "  Testing "; py "one two  "])
              (py "sample.wav") (py "base") (py "en") initial_world)
       = Value t
       /\ leading_space t = false
       /\ trailing_space t = false.
Proof.
  split.
  - exact (stub_produces [py "  Testing "; py "one two  "] _ _ _).
  - exact (transcript_has_no_outer_whitespace initial_world
             (stub_produces [py "  Testing "; py "one two  "]
                (py "sample.wav") (py "base") (py "en"))).
Defined.

(* ================================================================= *)
(** ** Failures *)

(** C4: when the import of the library fails with [ImportError],
    [transcribe_audio] writes the fixed message, which contains the
    install instruction, on standard error, writes nothing on standard
    output and leaves by [sys.exit(1)]; so the process, which had an
    existing audio file to get there, ends with that message on
    standard error, an empty standard output and status 1.  Status 1
    and the empty standard output hold for every command line. *)
Theorem import_error_reports_install_instruction :
  forall rt e,
    import_WhisperModel rt = Raises e ->
    exc_type e = ImportError ->
    (forall audio_path model_size language w,
       transcribe_audio rt audio_path model_size language w
       = (SystemExit 1, after w (msg_not_installed ++ [10%N]) [CallImport]))
    /\ contains (py "Install with: pip install faster-whisper")
         msg_not_installed = true
    /\ (forall argv path_exists,
          p_status (run argv path_exists rt) = Exited 1
          /\ p_stdout (run argv path_exists rt) = [])
    /\ (forall argv path_exists audio_file,
          nth_error argv 1 = Some audio_file ->
          path_exists audio_file = true ->
          p_stderr (run argv path_exists rt) = msg_not_installed ++ [10%N]).
Proof.
  intros rt e Hi He.
  assert (Hf : forall audio_path model_size language w,
            transcribe_audio rt audio_path model_size language w
            = (SystemExit 1,
               after w (msg_not_installed ++ [10%N]) [CallImport])).
  { intros. apply (@transcribe_audio_import_error rt _ _ _ e w Hi He). }
  split; [exact Hf|]. split; [reflexivity|]. split.
  - intros argv path_exists. unfold run.
    destruct (nth_error argv 1) as [audio_file|] eqn:Ha.
    + rewrite (@main_with_audio_file argv path_exists rt audio_file
                 initial_world Ha).
      destruct (path_exists audio_file); cbn [negb].
      * unfold bind. rewrite Hf. split; reflexivity.
      * split; reflexivity.
    + rewrite main_usage by (apply nth_error_None in Ha; lia).
      split; reflexivity.
  - intros argv path_exists audio_file Ha Hx. unfold run.
    rewrite (@main_with_audio_file argv path_exists rt audio_file
               initial_world Ha), Hx.
    cbn [negb]. unfold bind. rewrite Hf. reflexivity.
Qed.

Lemma import_error_reports_install_instruction_missing :
  p_status (run [py "prog"; py "sample.wav"] (fun _ => true) missing_runtime)
  = Exited 1
  /\ p_stdout (run [py "prog"; py "sample.wav"] (fun _ => true)
                 missing_runtime) = []
  /\ p_stderr (run [py "prog"; py "sample.wav"] (fun _ => true)
                 missing_runtime)
     = msg_not_installed ++ [10%N].
Proof.
  pose proof (@import_error_reports_install_instruction missing_runtime
                _ eq_refl eq_refl) as (_ & _ & Hp & He).
  split; [exact (proj1 (Hp _ _))|].
  split; [exact (proj2 (Hp _ _))|].
  exact (He [py "prog"; py "sample.wav"] (fun _ => true) (py "sample.wav")
            eq_refl eq_refl).
Defined.

(** C5: when the construction of the model, the [transcribe] call or
    the consumption of its segments raises an [Exception] that is not an
    [ImportError], the process writes on standard error one line made of
    ["Error transcribing audio: "] and the description of the exception,
    writes nothing on standard output and exits with status 1; the model
    was constructed once and [transcribe] called at most once. *)
Theorem other_exception_reports_description :
  forall rt argv path_exists audio_file e,
    nth_error argv 1 = Some audio_file ->
    path_exists audio_file = true ->
    transcription_raises rt audio_file (arg_model_size argv)
      (arg_language argv) e ->
    exc_type e = OtherException ->
    p_status (run argv path_exists rt) = Exited 1
    /\ p_stdout (run argv path_exists rt) = []
    /\ p_stderr (run argv path_exists rt)
       = py "Error transcribing audio: " ++ exc_str e ++ [10%N]
    /\ contains (exc_str e) (p_stderr (run argv path_exists rt)) = true
    /\ sessions (p_calls (run argv path_exists rt))
       = [model_args (arg_model_size argv)]
    /\ (List.length (inferences (p_calls (run argv path_exists rt))) <= 1)%nat.
Proof.
  intros rt argv path_exists audio_file e Ha Hx Hr He.
  destruct (transcribe_audio_raises initial_world Hr He) as (cs & Ht & Hcs).
  unfold run.
  rewrite (@main_with_audio_file argv path_exists rt audio_file
             initial_world Ha), Hx.
  cbn [negb]. unfold bind. rewrite Ht.
  cbn [p_status p_stdout p_stderr p_calls after stdout stderr calls
       initial_world app].
  unfold msg_transcribing. rewrite <- app_assoc.
  split; [reflexivity|]. split; [reflexivity|]. split; [reflexivity|].
  split; [apply contains_app|].
  destruct Hcs as [-> | ->]; split; cbn; auto.
Qed.

Lemma other_exception_reports_description_broken :
  p_status (run [py "prog"; py "sample.wav"; py "huge"] (fun _ => true)
              (broken_runtime OtherException (py "Invalid model size")))
  = Exited 1
  /\ p_stdout (run [py "prog"; py "sample.wav"; py "huge"] (fun _ => true)
                 (broken_runtime OtherException (py "Invalid model size")))
     = []
  /\ p_stderr (run [py "prog"; py "sample.wav"; py "huge"] (fun _ => true)
                 (broken_runtime OtherException (py "Invalid model size")))
     = py "Error transcribing audio: Invalid model size" ++ [10%N].
Proof.
  assert (Hr : transcription_raises
                 (broken_runtime OtherException (py "Invalid model size"))
                 (py "sample.wav")
                 (arg_model_size [py "prog"; py "sample.wav"; py "huge"])
                 (arg_language [py "prog"; py "sample.wav"; py "huge"])
                 {| exc_type := OtherException;
                    exc_str := py "Invalid model size" |}).
  { eexists. split; [reflexivity | left; reflexivity]. }
  pose proof (@other_exception_reports_description
                (broken_runtime OtherException (py "Invalid model size"))
                [py "prog"; py "sample.wav"; py "huge"] (fun _ => true)
                (py "sample.wav") _ eq_refl eq_refl Hr eq_refl)
    as (H1 & H2 & H3 & _).
  split; [exact H1|]. split; [exact H2|]. exact H3.
Defined.

(** C6: when the audio file named on the command line does not exist,
    the process writes on standard error a line naming that path, writes
    nothing on standard output, exits with status 1, and calls nothing
    of the library: [transcribe_audio] is not invoked, and the run is
    the same whatever the library. *)
Theorem missing_audio_file_is_reported :
  forall argv path_exists rt audio_file,
    nth_error argv 1 = Some audio_file ->
    path_exists audio_file = false ->
    p_status (run argv path_exists rt) = Exited 1
    /\ p_stderr (run argv path_exists rt)
       = py "Error: Audio file not found: " ++ audio_file ++ [10%N]
    /\ contains audio_file (p_stderr (run argv path_exists rt)) = true
    /\ p_stdout (run argv path_exists rt) = []
    /\ p_calls (run argv path_exists rt) = []
    /\ (forall rt', run argv path_exists rt' = run argv path_exists rt).
Proof.
  intros argv path_exists rt audio_file Ha Hx.
  assert (Hrun : forall r,
            run argv path_exists r
            = {| p_stdout := [];
                 p_stderr := msg_not_found audio_file ++ [10%N];
                 p_status := Exited 1;
                 p_calls := [] |}).
  { intros r. unfold run.
    rewrite (@main_with_audio_file argv path_exists r audio_file
               initial_world Ha), Hx.
    reflexivity. }
  split; [rewrite Hrun; reflexivity|].
  split; [rewrite Hrun; unfold msg_not_found; cbn [p_stderr]; rewrite <- app_assoc; reflexivity|].
  split.
  { rewrite Hrun. cbn [p_stderr]. unfold msg_not_found.
    rewrite <- app_assoc. apply contains_app. }
  split; [rewrite Hrun; reflexivity|].
  split; [rewrite Hrun; reflexivity|].
  intros rt'. rewrite !Hrun. reflexivity.
Qed.

Lemma missing_audio_file_is_reported_nofile :
  p_status (run [py "prog"; py "nofile.wav"] (fun _ => false)
              (stub_runtime [py "never"]))
  = Exited 1
  /\ p_stderr (run [py "prog"; py "nofile.wav"] (fun _ => false)
                 (stub_runtime [py "never"]))
     = py "Error: Audio file not found: nofile.wav" ++ [10%N]
  /\ p_calls (run [py "prog"; py "nofile.wav"] (fun _ => false)
                (stub_runtime [py "never"]))
     = [].
Proof.
  pose proof (@missing_audio_file_is_reported
                [py "prog"; py "nofile.wav"] (fun _ => false)
                (stub_runtime [py "never"]) (py "nofile.wav")
                eq_refl eq_refl)
    as (H1 & H2 & _ & _ & H5 & _).
  split; [exact H1|]. split; [exact H2|]. exact H5.
Defined.

(** C7: invoked with nothing after the program name (or with an empty
    [sys.argv]), the script writes its three usage lines on standard
    error and exits with status 1; nothing is written on standard
    output and nothing of the library is called. *)
Theorem missing_argument_prints_usage :
  forall argv path_exists rt,
    (List.length argv < 2)%nat ->
    p_status (run argv path_exists rt) = Exited 1
    /\ p_stderr (run argv path_exists rt)
       = py "Usage: python3 faster_whisper_transcribe.py <audio_file> [model_size] [language]"
         ++ [10%N]
         ++ py "  model_size: tiny, base, small, medium, large-v2 (default: base)"
         ++ [10%N]
         ++ py "  language: en, es, fr, etc. (default: en)"
         ++ [10%N]
    /\ p_stdout (run argv path_exists rt) = []
    /\ p_calls (run argv path_exists rt) = [].
Proof.
  intros argv path_exists rt H.
  unfold run. rewrite main_usage by exact H.
  repeat split; reflexivity.
Qed.

Lemma missing_argument_prints_usage_prog :
  (List.length [py "prog"] < 2)%nat
  /\ p_status (run [py "prog"] (fun _ => true) (stub_runtime [py "never"]))
     = Exited 1
  /\ p_calls (run [py "prog"] (fun _ => true) (stub_runtime [py "never"]))
     = [].
Proof.
  assert (H : (List.length [py "prog"] < 2)%nat) by (simpl; lia).
  pose proof (@missing_argument_prints_usage [py "prog"] (fun _ => true)
                (stub_runtime [py "never"]) H) as (H1 & _ & _ & H4).
  split; [exact H|]. split; [exact H1 | exact H4].
Defined.

(* ================================================================= *)
(** ** The calls into the library *)

(** Neither [except] clause calls the library. *)
Lemma handlers_keep_log (e : pyexc) (w : world) :
  calls (snd (match handlers e with
              | Some h => h w
              | None => (Exception e, w)
              end))
  = calls w.
Proof.
  unfold handlers. destruct (exc_type e); reflexivity.
Qed.

(** The log of one invocation whose import succeeds: the construction
    of the model, then the inference call when there is a model. *)
Lemma calls_of_imported rt audio_path model_size language cls :
  import_WhisperModel rt = Returns cls ->
  calls_of rt audio_path model_size language
  = [CallImport; CallWhisperModel (model_args model_size)]
    ++ match cls (model_args model_size) with
       | Returns _ => [CallTranscribe (transcribe_args audio_path language)]
       | Raises _ => []
       end.
Proof.
  intros Hi.
  unfold calls_of, transcribe_audio, try_except, bind, extern, ret.
  rewrite Hi. cbn [stdout stderr calls initial_world app].
  destruct (cls (model_args model_size)) as [m | e].
  - cbn [stdout stderr calls].
    destruct (transcribe m (transcribe_args audio_path language))
      as [[g info] | e]; cbn [fst stdout stderr calls].
    + destruct (finally_raises g) as [e|].
      * rewrite collect_raises. rewrite handlers_keep_log. reflexivity.
      * rewrite collect_stops. reflexivity.
    + rewrite handlers_keep_log. reflexivity.
  - rewrite handlers_keep_log. reflexivity.
Qed.

(** C8, as stated, fails: an invocation whose import fails constructs
    no model, and one whose construction fails issues no inference
    call. *)
Lemma not_every_invocation_constructs_a_session :
  ~ one_session_one_inference missing_runtime
      (py "sample.wav") (py "base") (py "en")
  /\ ~ one_session_one_inference
         (broken_runtime OtherException (py "Invalid model size"))
         (py "sample.wav") (py "huge") (py "en").
Proof.
  split; intros [H1 H2]; vm_compute in H1, H2; discriminate.
Qed.

(** C8, amended: in every invocation whose import of the library
    succeeds, [transcribe_audio] calls the constructor of the model
    exactly once, for CPU execution and int8 computation; when the
    constructor returns a model it issues exactly one inference call,
    with beam size 1, best-of 1, the VAD filter enabled with 500 ms of
    minimum silence and the language it was given (never [None]); when
    the constructor raises it issues none. *)
Theorem imported_library_gets_one_session_one_inference :
  forall rt audio_path model_size language cls,
    import_WhisperModel rt = Returns cls ->
    sessions (calls_of rt audio_path model_size language)
    = [ {| model_size_or_path := model_size;
           device := py "cpu";
           compute_type := py "int8" |} ]
    /\ (forall m,
          cls (model_args model_size) = Returns m ->
          one_session_one_inference rt audio_path model_size language)
    /\ (forall e,
          cls (model_args model_size) = Raises e ->
          inferences (calls_of rt audio_path model_size language) = []).
Proof.
  intros rt audio_path model_size language cls Hi.
  unfold one_session_one_inference.
  rewrite (@calls_of_imported rt audio_path model_size language cls Hi).
  split; [|split].
  - destruct (cls (model_args model_size)); reflexivity.
  - intros m ->. split; reflexivity.
  - intros e ->. reflexivity.
Qed.

Lemma imported_library_gets_one_session_one_inference_stub :
  one_session_one_inference (stub_runtime [py "Hello"])
    (py "sample.wav") (py "base") (py "en").
Proof.
  exact (proj1 (proj2
           (@imported_library_gets_one_session_one_inference
              (stub_runtime [py "Hello"]) (py "sample.wav") (py "base")
              (py "en") _ eq_refl))
         _ eq_refl).
Defined.

(* ================================================================= *)
(** ** Whitespace inside the transcript *)

(** C9: a segment whose text is only whitespace still gets its
    separators: when it stands between two segments whose texts are not
    only whitespace, the transcript contains their trimmed texts with
    two spaces in between (the segments ["a"], ["   "], ["b"] give
    ["a  b"]).  What [strip] removes from a text is whitespace at its two
    ends, and the trimmed text of every segment, with its inner
    whitespace and newlines, occurs in the transcript as it is. *)
Theorem whitespace_segment_keeps_its_separator :
  forall rt audio_path model_size language segs w,
    produces rt audio_path model_size language segs ->
    exists t,
      fst (transcribe_audio rt audio_path model_size language w) = Value t
      /\ (forall pre s1 sw s2 post,
            segs = pre ++ [s1; sw; s2] ++ post ->
            all_space (text s1) = false ->
            all_space (text sw) = true ->
            all_space (text s2) = false ->
            contains (py "  ") t = true
            /\ exists l r,
                 t = l ++ (strip (text s1) ++ py "  " ++ strip (text s2))
                       ++ r)
      /\ (map text segs = [py "a"; py "   "; py "b"] -> t = py "a  b")
      /\ (forall pre s post,
            segs = pre ++ s :: post ->
            (exists l r, t = l ++ strip (text s) ++ r)
            /\ exists l r,
                 text s = l ++ strip (text s) ++ r
                 /\ all_space l = true /\ all_space r = true)
      /\ (map text segs = [py " one" ++ [10%N] ++ py "two  three "] ->
          t = py "one" ++ [10%N] ++ py "two  three").
Proof.
  intros rt audio_path model_size language segs w H.
  exists (spec_transcript (map text segs)).
  rewrite (transcribe_audio_returns w H). cbn [fst].
  split; [reflexivity|]. split; [|split; [|split]].
  - intros pre s1 sw s2 post -> H1 Hw H2.
    rewrite map_app. cbn [map app].
    destruct (@spec_transcript_double_space (map text pre) (text s1)
                (text sw) (text s2) (map text post) H1 Hw H2)
      as (l & r & E).
    cbn [app] in E. rewrite E. split.
    + rewrite <- !app_assoc.
      rewrite (app_assoc l (strip (text s1))).
      apply contains_app.
    + exists l, r. reflexivity.
  - intros ->. reflexivity.
  - intros pre s post ->. split.
    + rewrite map_app. cbn [map].
      apply spec_transcript_keeps.
    + apply strip_split.
  - intros ->. reflexivity.
Qed.

Lemma whitespace_segment_keeps_its_separator_a_b :
  produces (stub_runtime [py "a"; py "   "; py "b"])
    (py "sample.wav") (py "base") (py "en")
    [{| text := py "a" |}; {| text := py "   " |}; {| text := py "b" |}]
  /\ exists t,
       fst (transcribe_audio (stub_runtime [py "a"; py "   "; py "b"])
              (py "sample.wav") (py "base") (py "en") initial_world)
       = Value t
       /\ t = py "a  b".
Proof.
  split.
  - exact (stub_produces [py "a"; py "   "; py "b"] _ _ _).
  - destruct (whitespace_segment_keeps_its_separator initial_world
                (stub_produces [py "a"; py "   "; py "b"]
                   (py "sample.wav") (py "base") (py "en")))
      as (t & Ht & _ & Hab & _).
    exists t. split; [exact Ht | exact (Hab eq_refl)].
Defined.

(* ================================================================= *)
(** ** The command line *)

(** A run reads [sys.argv] through its items 1 to 3 only, and the file
    system through the existence of the audio file only. *)
Lemma run_reads_three_arguments :
  forall argv1 argv2 path_exists1 path_exists2 rt,
    firstn 3 (tl argv1) = firstn 3 (tl argv2) ->
    (forall audio_file,
       nth_error argv1 1 = Some audio_file ->
       path_exists1 audio_file = path_exists2 audio_file) ->
    run argv1 path_exists1 rt = run argv2 path_exists2 rt.
Proof.
  intros argv1 argv2 path_exists1 path_exists2 rt H Hx.
  destruct argv1 as [|a0 [|a1 r1]]; destruct argv2 as [|b0 [|b1 r2]];
    try discriminate H; try reflexivity.
  cbn [tl firstn] in H. injection H as <- H.
  specialize (Hx a1 eq_refl).
  assert (Hm : arg_model_size (a0 :: a1 :: r1)
               = arg_model_size (b0 :: a1 :: r2)).
  { destruct r1 as [|a2 r1]; destruct r2 as [|b2 r2];
      try discriminate H; [reflexivity|].
    injection H as <- _. reflexivity. }
  assert (Hl : arg_language (a0 :: a1 :: r1)
               = arg_language (b0 :: a1 :: r2)).
  { destruct r1 as [|a2 [|a3 r1]]; destruct r2 as [|b2 [|b3 r2]];
      try discriminate H; try reflexivity.
    injection H as _ <-. reflexivity. }
  unfold run.
  rewrite (@main_with_audio_file (a0 :: a1 :: r1) path_exists1 rt a1
             initial_world eq_refl).
  rewrite (@main_with_audio_file (b0 :: a1 :: r2) path_exists2 rt a1
             initial_world eq_refl).
  rewrite Hx, Hm, Hl. reflexivity.
Qed.

(** C10: two invocations that agree on the first three arguments after
    the program name, run with the same library in the same file system,
    have the same standard output, standard error, exit status and
    library calls: the name of the program and the arguments after the
    third have no effect. *)
Theorem extra_arguments_are_ignored :
  forall argv1 argv2 path_exists rt,
    firstn 3 (tl argv1) = firstn 3 (tl argv2) ->
    run argv1 path_exists rt = run argv2 path_exists rt.
Proof.
  intros argv1 argv2 path_exists rt H.
  apply run_reads_three_arguments; [exact H | reflexivity].
Qed.

Lemma extra_arguments_are_ignored_sample :
  run [py "prog"; py "sample.wav"; py "tiny"; py "fr"; py "--verbose"]
    (fun _ => true) (stub_runtime [py "  Testing "; py "one two  "])
  = run [py "other"; py "sample.wav"; py "tiny"; py "fr"; py "x"; py "y"]
      (fun _ => true) (stub_runtime [py "  Testing "; py "one two  "]).
Proof.
  apply (@extra_arguments_are_ignored
           [py "prog"; py "sample.wav"; py "tiny"; py "fr"; py "--verbose"]
           [py "other"; py "sample.wav"; py "tiny"; py "fr"; py "x"; py "y"]
           (fun _ => true)
           (stub_runtime [py "  Testing "; py "one two  "])).
  reflexivity.
Defined.

(* ================================================================= *)
(** ** The edges of the two [except] clauses *)

(** An [ImportError] raised by the constructor of the model, not by the
    import, is caught by the same clause as a failed import. *)
Remark construction_import_error_takes_the_install_clause :
  p_stderr (run [py "prog"; py "sample.wav"] (fun _ => true)
              (broken_runtime ImportError (py "No module named 'av'")))
  = msg_not_installed ++ [10%N].
Proof. reflexivity. Qed.

(** What derives from [BaseException] only is caught by no clause:
    nothing is written and the exception leaves the script. *)
Remark base_exception_leaves_the_script :
  run [py "prog"; py "sample.wav"] (fun _ => true)
    (broken_runtime BaseExceptionOnly (py ""))
  = {| p_stdout := [];
       p_stderr := [];
       p_status := Uncaught {| exc_type := BaseExceptionOnly;
                               exc_str := py "" |};
       p_calls := [CallImport; CallWhisperModel (model_args (py "base"))] |}.
Proof. reflexivity. Qed.

(** End to end: with the segments ["  Testing "] and ["one two  "] the
    script prints ["Testing one two"] and exits with status 0. *)
Example end_to_end_sample :
  run [py "prog"; py "sample.wav"; py "base"; py "en"] (fun _ => true)
    (stub_runtime [py "  Testing "; py "one two  "])
  = {| p_stdout := py "Testing one two" ++ [10%N];
       p_stderr := [];
       p_status := Exited 0;
       p_calls := [CallImport;
                   CallWhisperModel (model_args (py "base"));
                   CallTranscribe
                     (transcribe_args (py "sample.wav") (py "en"))] |}.
Proof. reflexivity. Qed.

(* ================================================================= *)
(** ** More about [strip] and [join] *)

Module MoreStrFacts.

Lemma lstrip_fixed (s : pystr) : leading_space s = false -> lstrip s = s.
Proof. intros H. exact (lstrip_app [] s H). Qed.

Lemma rstrip_fixed (s : pystr) : trailing_space s = false -> rstrip s = s.
Proof.
  intros H. pose proof (rstrip_app s [] H) as E.
  change (rstrip []) with (@nil N) in E.
  rewrite !app_nil_r in E. exact E.
Qed.

Lemma strip_fixed (s : pystr) :
  leading_space s = false -> trailing_space s = false -> strip s = s.
Proof.
  intros Hl Ht. unfold strip. rewrite (lstrip_fixed s Hl).
  apply rstrip_fixed. exact Ht.
Qed.


(** Whitespace in front is dropped whatever follows. *)
Lemma lstrip_pad (l s : pystr) :
  all_space l = true -> lstrip (l ++ s) = lstrip s.
Proof.
  induction l as [|c l IH]; intros H; [reflexivity|].
  simpl in H. apply andb_prop in H. destruct H as [Hc Hl].
  simpl. rewrite Hc. apply IH. exact Hl.
Qed.

Lemma rstrip_pad (s r : pystr) :
  all_space r = true -> rstrip (s ++ r) = rstrip s.
Proof.
  intros H. unfold rstrip. rewrite rev_app_distr.
  rewrite lstrip_pad by (rewrite all_space_rev; exact H).
  reflexivity.
Qed.

(** [lstrip] stops inside a string that has a non-whitespace character. *)
Lemma lstrip_content (s r : pystr) :
  all_space s = false -> lstrip (s ++ r) = lstrip s ++ r.
Proof.
  induction s as [|c s IH]; intros H; [discriminate|].
  simpl in H. simpl. destruct (isspace c); [|reflexivity].
  apply IH. exact H.
Qed.

(** Whitespace around a text does not change what [strip] returns. *)
Lemma strip_pad (l s r : pystr) :
  all_space l = true -> all_space r = true -> strip (l ++ s ++ r) = strip s.
Proof.
  intros Hl Hr. unfold strip. rewrite (lstrip_pad l (s ++ r) Hl).
  destruct (all_space s) eqn:Hs.
  - assert (E1 : lstrip (s ++ r) = []).
    { apply lstrip_nil_iff. rewrite all_space_app, Hs, Hr. reflexivity. }
    assert (E2 : lstrip s = []) by (apply lstrip_nil_iff; exact Hs).
    rewrite E1, E2. reflexivity.
  - rewrite (lstrip_content s r Hs). apply rstrip_pad. exact Hr.
Qed.

Lemma in_strip (c : N) (s : pystr) : In c (strip s) -> In c s.
Proof.
  intros H. destruct (strip_split s) as (l & r & E & _).
  rewrite E. apply in_or_app. right. apply in_or_app. left. exact H.
Qed.

(** [join] writes nothing but the separator and the parts. *)
Lemma in_join (c : N) (sep : pystr) (parts : list pystr) :
  In c (join sep parts) ->
  In c sep \/ exists p, In p parts /\ In c p.
Proof.
  induction parts as [|p rest IH]; intros H; [destruct H|].
  destruct rest as [|q rest].
  - right. exists p. split; [left; reflexivity | exact H].
  - rewrite join_cons in H by discriminate.
    apply in_app_or in H. destruct H as [H | H].
    + right. exists p. split; [left; reflexivity | exact H].
    + apply in_app_or in H. destruct H as [H | H]; [left; exact H|].
      destruct (IH H) as [Hs | (p' & Hp & Hc)]; [left; exact Hs|].
      right. exists p'. split; [right; exact Hp | exact Hc].
Qed.

Lemma all_space_join (sep : pystr) (parts : list pystr) :
  all_space sep = true ->
  (forall p, In p parts -> all_space p = true) ->
  all_space (join sep parts) = true.
Proof.
  intros Hsep. induction parts as [|p rest IH]; intros H; [reflexivity|].
  destruct rest as [|q rest].
  - apply H. left. reflexivity.
  - rewrite join_cons by discriminate.
    rewrite !all_space_app, Hsep, (H p (or_introl eq_refl)).
    cbn [andb]. apply IH. intros p' Hp. apply H. right. exact Hp.
Qed.

(** Parts that are not empty and have no whitespace at their ends give
    a joined string with none at its ends. *)
Lemma join_clean_ends (sep : pystr) (parts : list pystr) :
  (forall p, In p parts ->
             p <> [] /\ leading_space p = false /\ trailing_space p = false) ->
  leading_space (join sep parts) = false
  /\ trailing_space (join sep parts) = false.
Proof.
  intros H. split.
  - destruct parts as [|p rest]; [reflexivity|].
    destruct (join_head sep p rest) as [b Hb]. rewrite Hb.
    destruct (H p (or_introl eq_refl)) as (Hne & Hl & _).
    rewrite leading_space_app by exact Hne. exact Hl.
  - destruct parts as [|p0 rest0]; [reflexivity|].
    destruct (@exists_last _ (p0 :: rest0)) as (front & q & E);
      [discriminate|].
    rewrite E in *.
    rewrite join_app by discriminate.
    destruct (H q) as (Hne & _ & Ht).
    { apply in_or_app. right. left. reflexivity. }
    cbn [join]. rewrite trailing_space_app by exact Hne. exact Ht.
Qed.

End MoreStrFacts.
Import MoreStrFacts.

(* ================================================================= *)
(** ** More about the script *)

Module MoreScriptFacts.

(** Either the library produces its segments, or something is raised
    under the [try]. *)
Lemma produces_or_raises rt audio_path model_size language :
  (exists segs, produces rt audio_path model_size language segs)
  \/ (exists e cs, raised_in_try rt audio_path model_size language e cs).
Proof.
  unfold produces, raised_in_try.
  destruct (import_WhisperModel rt) as [cls | e] eqn:Hi.
  - destruct (cls (model_args model_size)) as [m | e] eqn:Hc.
    + destruct (transcribe m (transcribe_args audio_path language))
        as [[[ys [e|]] info] | e] eqn:Ht.
      * right. exists e, (all_calls audio_path model_size language).
        right. exists cls. split; [reflexivity|]. right. exists m.
        split; [exact Hc|]. split; [reflexivity|]. right.
        eexists. eexists. split; [exact Ht | reflexivity].
      * left. exists ys, cls, m, info. repeat split; assumption.
      * right. exists e, (all_calls audio_path model_size language).
        right. exists cls. split; [reflexivity|]. right. exists m.
        split; [exact Hc|]. split; [reflexivity|]. left. exact Ht.
    + right. eexists. eexists. right. exists cls.
      split; [reflexivity|]. left. split; [exact Hc | reflexivity].
  - right. exists e, [CallImport]. left. split; reflexivity.
Qed.

(** The two clauses applied to [e], in a world where [cs] was logged. *)
Lemma handlers_spec (e : pyexc) (w : world) (cs : list call) :
  match handlers e with
  | Some h => h (logged w cs)
  | None => (Exception e, logged w cs)
  end
  = match exc_type e with
    | ImportError =>
        (SystemExit 1, after w (msg_not_installed ++ [10%N]) cs)
    | OtherException =>
        (SystemExit 1, after w (msg_transcribing e ++ [10%N]) cs)
    | BaseExceptionOnly => (Exception e, logged w cs)
    end.
Proof.
  unfold handlers. destruct (exc_type e); reflexivity.
Qed.

(** Whatever is raised under the [try], its class alone selects what
    [transcribe_audio] does. *)
Lemma transcribe_audio_raised rt audio_path model_size language e cs w :
  raised_in_try rt audio_path model_size language e cs ->
  transcribe_audio rt audio_path model_size language w
  = match exc_type e with
    | ImportError =>
        (SystemExit 1, after w (msg_not_installed ++ [10%N]) cs)
    | OtherException =>
        (SystemExit 1, after w (msg_transcribing e ++ [10%N]) cs)
    | BaseExceptionOnly => (Exception e, logged w cs)
    end.
Proof.
  intros H. rewrite <- handlers_spec.
  unfold transcribe_audio, try_except, bind, extern, ret.
  destruct H as [[Hi ->] | (cls & Hi & H)]; rewrite Hi;
    cbn [stdout stderr calls]; [reflexivity|].
  destruct H as [[Hc ->] | (m & Hc & -> & H)]; rewrite Hc;
    cbn [stdout stderr calls].
  - unfold logged. rewrite <- !app_assoc. reflexivity.
  - destruct H as [Ht | (g & info & Ht & Hg)]; rewrite Ht;
      cbn [fst stdout stderr calls].
    + unfold logged, all_calls. rewrite <- !app_assoc. reflexivity.
    + rewrite Hg, collect_raises.
      unfold logged, all_calls. rewrite <- !app_assoc. reflexivity.
Qed.

(** A run that reaches [transcribe_audio] ends as that call ends. *)
Lemma run_reaching argv path_exists rt audio_file :
  nth_error argv 1 = Some audio_file ->
  path_exists audio_file = true ->
  run argv path_exists rt
  = finish
      (fst (transcribe_audio rt audio_file (arg_model_size argv)
              (arg_language argv) initial_world))
      (snd (transcribe_audio rt audio_file (arg_model_size argv)
              (arg_language argv) initial_world)).
Proof.
  intros Ha Hx. unfold run.
  rewrite (@main_with_audio_file argv path_exists rt audio_file
             initial_world Ha), Hx.
  cbn [negb]. unfold bind.
  destruct (transcribe_audio rt audio_file (arg_model_size argv)
              (arg_language argv) initial_world) as [[t | c | e] w];
    reflexivity.
Qed.


Lemma arg_model_size_spec (argv : list pystr) :
  arg_model_size argv
  = match nth_error argv 2 with Some s => s | None => py "base" end.
Proof. destruct argv as [|a0 [|a1 [|a2 rest]]]; reflexivity. Qed.

Lemma arg_language_spec (argv : list pystr) :
  arg_language argv
  = match nth_error argv 3 with Some s => s | None => py "en" end.
Proof. destruct argv as [|a0 [|a1 [|a2 [|a3 rest]]]]; reflexivity. Qed.

End MoreScriptFacts.
Import MoreScriptFacts.

(* ================================================================= *)
(** ** How a run ends *)




(** X3: what the command line gives the library.  When the run reaches a
    library that imports and builds a model for any arguments, the model
    is built once with [sys.argv[2]], or ["base"] when there is none, and
    the one inference call gets [sys.argv[1]] as audio and [sys.argv[3]],
    or ["en"] when there is none, as language; the strings are passed as
    they are, whatever they are. *)
Theorem command_line_reaches_library_unchanged :
  forall argv path_exists rt audio_file cls,
    nth_error argv 1 = Some audio_file ->
    path_exists audio_file = true ->
    import_WhisperModel rt = Returns cls ->
    (forall args, exists m, cls args = Returns m) ->
    sessions (p_calls (run argv path_exists rt))
    = [ {| model_size_or_path :=
             match nth_error argv 2 with Some s => s | None => py "base" end;
           device := py "cpu";
           compute_type := py "int8" |} ]
    /\ inferences (p_calls (run argv path_exists rt))
       = [ {| audio := audio_file;
              language :=
                Some (match nth_error argv 3 with
                      | Some s => s
                      | None => py "en"
                      end);
              beam_size := 1;
              best_of := 1;
              vad_filter := true;
              vad_parameters := [(py "min_silence_duration_ms", 500%Z)] |} ].
Proof.
  intros argv path_exists rt audio_file cls Ha Hx Hi Hc.
  rewrite (@run_reaching argv path_exists rt audio_file Ha Hx).
  rewrite <- arg_model_size_spec, <- arg_language_spec.
  assert (E : p_calls
                (finish
                   (fst (transcribe_audio rt audio_file (arg_model_size argv)
                           (arg_language argv) initial_world))
                   (snd (transcribe_audio rt audio_file (arg_model_size argv)
                           (arg_language argv) initial_world)))
              = calls_of rt audio_file (arg_model_size argv)
                  (arg_language argv)).
  { unfold calls_of.
    destruct (transcribe_audio rt audio_file (arg_model_size argv)
                (arg_language argv) initial_world) as [[t | c | e] w];
      reflexivity. }
  rewrite E.
  rewrite (@calls_of_imported rt audio_file (arg_model_size argv)
             (arg_language argv) cls Hi).
  destruct (Hc (model_args (arg_model_size argv))) as [m ->].
  split; reflexivity.
Qed.

Lemma command_line_reaches_library_unchanged_defaults :
  sessions (p_calls (run [py "prog"; py "sample.wav"] path_exists_always
                       (stub_runtime [py "Hello"])))
  = [ {| model_size_or_path := py "base";
         device := py "cpu";
         compute_type := py "int8" |} ]
  /\ inferences (p_calls (run [py "prog"; py "sample.wav"]
                            path_exists_always (stub_runtime [py "Hello"])))
     = [ {| audio := py "sample.wav";
            language := Some (py "en");
            beam_size := 1;
            best_of := 1;
            vad_filter := true;
            vad_parameters := [(py "min_silence_duration_ms", 500%Z)] |} ].
Proof.
  apply (@command_line_reaches_library_unchanged
           [py "prog"; py "sample.wav"] path_exists_always
           (stub_runtime [py "Hello"]) (py "sample.wav") _
           eq_refl eq_refl eq_refl).
  intros args. eexists. reflexivity.
Defined.

(** X4: in every invocation, failing or not, [transcribe_audio] keeps
    the calls logged before it and adds a non-empty prefix of: the
    import, the construction of the model, the inference call.  So the
    import always comes first, nothing is called twice, and there is no
    inference call without a construction before it. *)
Theorem library_calls_are_a_prefix :
  forall rt audio_path model_size language w,
    exists n,
      (1 <= n)%nat
      /\ calls (snd (transcribe_audio rt audio_path model_size language w))
         = calls w
           ++ firstn n [CallImport;
                        CallWhisperModel (model_args model_size);
                        CallTranscribe
                          (transcribe_args audio_path language)].
Proof.
  intros rt audio_path model_size language w.
  destruct (produces_or_raises rt audio_path model_size language)
    as [(segs & H) | (e & cs & H)].
  - exists 3%nat. rewrite (transcribe_audio_returns w H).
    split; [lia | reflexivity].
  - rewrite (transcribe_audio_raised w H).
    assert (Hcs : exists n, (1 <= n)%nat
                    /\ cs = firstn n (all_calls audio_path model_size
                                        language)).
    { destruct H as [[_ ->] | (cls & _ & [[_ ->] | (m & _ & -> & _)])].
      - exists 1%nat. split; [lia | reflexivity].
      - exists 2%nat. split; [lia | reflexivity].
      - exists 3%nat. split; [lia | reflexivity]. }
    destruct Hcs as (n & Hn & ->). exists n. split; [exact Hn|].
    destruct (exc_type e); reflexivity.
Qed.

(** X5: whatever is raised under the [try], by the import, by the
    construction of the model, by the inference call or by the generator
    after it has yielded segments, the class of the exception alone
    selects the end of the run: an [ImportError] gives the install
    message and status 1, any other [Exception] gives its description
    after ["Error transcribing audio: "] and status 1, and what derives
    from [BaseException] only leaves the script with nothing written.
    Standard output stays empty in all three cases: segments already
    yielded are not printed. *)
Theorem exception_class_selects_the_end :
  forall argv path_exists rt audio_file e cs,
    nth_error argv 1 = Some audio_file ->
    path_exists audio_file = true ->
    raised_in_try rt audio_file (arg_model_size argv) (arg_language argv)
      e cs ->
    p_stdout (run argv path_exists rt) = []
    /\ p_calls (run argv path_exists rt) = cs
    /\ match exc_type e with
       | ImportError =>
           p_status (run argv path_exists rt) = Exited 1
           /\ p_stderr (run argv path_exists rt)
              = msg_not_installed ++ [10%N]
       | OtherException =>
           p_status (run argv path_exists rt) = Exited 1
           /\ p_stderr (run argv path_exists rt)
              = py "Error transcribing audio: " ++ exc_str e ++ [10%N]
       | BaseExceptionOnly =>
           p_status (run argv path_exists rt) = Uncaught e
           /\ p_stderr (run argv path_exists rt) = []
       end.
Proof.
  intros argv path_exists rt audio_file e cs Ha Hx H.
  rewrite (@run_reaching argv path_exists rt audio_file Ha Hx).
  rewrite (transcribe_audio_raised initial_world H).
  destruct (exc_type e); cbn; repeat split.
Qed.

Lemma exception_class_selects_the_end_partial :
  p_stdout (run [py "prog"; py "sample.wav"] path_exists_always
              (failing_generator_runtime [py "partial"]
                 {| exc_type := OtherException;
                    exc_str := py "decode failed" |}))
  = []
  /\ p_status (run [py "prog"; py "sample.wav"] path_exists_always
                 (failing_generator_runtime [py "partial"]
                    {| exc_type := OtherException;
                       exc_str := py "decode failed" |}))
     = Exited 1
  /\ p_stderr (run [py "prog"; py "sample.wav"] path_exists_always
                 (failing_generator_runtime [py "partial"]
                    {| exc_type := OtherException;
                       exc_str := py "decode failed" |}))
     = py "Error transcribing audio: decode failed" ++ [10%N].
Proof.
  assert (H : raised_in_try
                (failing_generator_runtime [py "partial"]
                   {| exc_type := OtherException;
                      exc_str := py "decode failed" |})
                (py "sample.wav")
                (arg_model_size [py "prog"; py "sample.wav"])
                (arg_language [py "prog"; py "sample.wav"])
                {| exc_type := OtherException;
                   exc_str := py "decode failed" |}
                (all_calls (py "sample.wav") (py "base") (py "en"))).
  { right. eexists. split; [reflexivity|]. right. eexists.
    split; [reflexivity|]. split; [reflexivity|]. right.
    eexists. eexists. split; reflexivity. }
  pose proof (@exception_class_selects_the_end
                [py "prog"; py "sample.wav"] path_exists_always _
                (py "sample.wav") _ _ eq_refl eq_refl H)
    as (H1 & _ & H2 & H3).
  split; [exact H1|]. split; [exact H2 | exact H3].
Defined.



(* ================================================================= *)
(** ** More about the transcript *)

(** X7: the transcript is the empty string exactly when no segment has
    a character that is not whitespace: segments of whitespace leave
    no trace, however many, and one character of content is enough for
    a non-empty transcript. *)
Theorem transcript_empty_iff_no_content :
  forall rt audio_path model_size language segs w,
    produces rt audio_path model_size language segs ->
    (fst (transcribe_audio rt audio_path model_size language w) = Value []
     <-> forall s, In s segs -> all_space (text s) = true).
Proof.
  intros rt audio_path model_size language segs w H.
  rewrite (transcribe_audio_returns w H). cbn [fst].
  split.
  - intros E s Hs. injection E as E.
    destruct (all_space (text s)) eqn:Hc; [reflexivity|].
    destruct (in_split s segs Hs) as (pre & post & ->).
    rewrite map_app in E. cbn [map] in E.
    destruct (spec_transcript_keeps (map text pre) (text s) (map text post))
      as (l & r & E').
    rewrite E in E'. symmetry in E'.
    apply app_eq_nil in E'. destruct E' as [_ E'].
    apply app_eq_nil in E'. destruct E' as [E' _].
    apply strip_nil_iff in E'. congruence.
  - intros Hall. f_equal. unfold spec_transcript.
    apply strip_nil_iff. apply all_space_join; [reflexivity|].
    intros p Hp. apply in_map_iff in Hp. destruct Hp as (t & <- & Ht).
    apply in_map_iff in Ht. destruct Ht as (s & <- & Hs).
    apply strip_nil_iff. apply strip_nil_iff.
    rewrite (proj2 (strip_nil_iff (text s)) (Hall s Hs)). reflexivity.
Qed.

Lemma transcript_empty_iff_no_content_blank :
  fst (transcribe_audio (stub_runtime [py "  "; [10%N]; [12288%N]])
         (py "sample.wav") (py "base") (py "en") initial_world)
  = Value []
  <-> forall s,
        In s [{| text := py "  " |}; {| text := [10%N] |};
              {| text := [12288%N] |}] ->
        all_space (text s) = true.
Proof.
  exact (transcript_empty_iff_no_content initial_world
           (stub_produces [py "  "; [10%N]; [12288%N]]
              (py "sample.wav") (py "base") (py "en"))).
Defined.

(** X8: the transcript holds no character of its own making: each of
    its characters is the space of a separator or a character of the
    text of some segment. *)
Theorem transcript_characters_come_from_segments :
  forall rt audio_path model_size language segs w,
    produces rt audio_path model_size language segs ->
    exists t,
      fst (transcribe_audio rt audio_path model_size language w) = Value t
      /\ forall c,
           In c t ->
           c = 32%N \/ exists s, In s segs /\ In c (text s).
Proof.
  intros rt audio_path model_size language segs w H.
  exists (spec_transcript (map text segs)).
  rewrite (transcribe_audio_returns w H).
  split; [reflexivity|].
  intros c Hc. unfold spec_transcript in Hc.
  apply in_strip in Hc. apply in_join in Hc.
  destruct Hc as [Hc | (p & Hp & Hc)].
  - left. destruct Hc as [Hc | []]. symmetry. exact Hc.
  - right. apply in_map_iff in Hp. destruct Hp as (t & <- & Ht).
    apply in_map_iff in Ht. destruct Ht as (s & <- & Hs).
    exists s. split; [exact Hs|]. apply in_strip. exact Hc.
Qed.

Lemma transcript_characters_come_from_segments_sample :
  exists t,
    fst (transcribe_audio (stub_runtime [py " ab "; py "c"])
           (py "sample.wav") (py "base") (py "en") initial_world)
    = Value t
    /\ forall c,
         In c t ->
         c = 32%N
         \/ exists s,
              In s [{| text := py " ab " |}; {| text := py "c" |}]
              /\ In c (text s).
Proof.
  exact (transcript_characters_come_from_segments initial_world
           (stub_produces [py " ab "; py "c"]
              (py "sample.wav") (py "base") (py "en"))).
Defined.

(** X9: segments whose texts are not empty and have no whitespace at
    their ends are joined as they are: the transcript is their texts
    with one space between neighbours, and neither trimming changes
    anything. *)
Theorem clean_segments_are_joined_unchanged :
  forall rt audio_path model_size language segs w,
    produces rt audio_path model_size language segs ->
    (forall s, In s segs ->
               text s <> []
               /\ leading_space (text s) = false
               /\ trailing_space (text s) = false) ->
    fst (transcribe_audio rt audio_path model_size language w)
    = Value (join (py " ") (map text segs)).
Proof.
  intros rt audio_path model_size language segs w H Hclean.
  rewrite (transcribe_audio_returns w H). cbn [fst]. f_equal.
  unfold spec_transcript.
  assert (E : map strip (map text segs) = map text segs).
  { rewrite <- (map_id (map text segs)) at 2.
    apply map_ext_in. intros t Ht.
    apply in_map_iff in Ht. destruct Ht as (s & <- & Hs).
    destruct (Hclean s Hs) as (_ & Hl & Ht).
    apply strip_fixed; assumption. }
  rewrite E.
  destruct (@join_clean_ends (py " ") (map text segs)) as [Hl Ht].
  - intros p Hp. apply in_map_iff in Hp. destruct Hp as (s & <- & Hs).
    apply Hclean. exact Hs.
  - apply strip_fixed; assumption.
Qed.

Lemma clean_segments_are_joined_unchanged_sample :
  fst (transcribe_audio (stub_runtime [py "Hello,"; py "big world"])
         (py "sample.wav") (py "base") (py "en") initial_world)
  = Value (py "Hello, big world").
Proof.
  apply (clean_segments_are_joined_unchanged initial_world
           (stub_produces [py "Hello,"; py "big world"]
              (py "sample.wav") (py "base") (py "en"))).
  intros s [<- | [<- | []]]; repeat split; discriminate.
Defined.

(** Padding the texts with whitespace leaves the trimmed parts as they
    are. *)
Lemma padded_texts_same_parts (segs segs' : list Segment) :
  Forall2 (fun s s' =>
             exists l r,
               all_space l = true /\ all_space r = true
               /\ text s' = l ++ text s ++ r)
          segs segs' ->
  map strip (map text segs') = map strip (map text segs).
Proof.
  intros Hpad.
  induction Hpad as [|s s' segs segs' (l & r & Hl & Hr & E) _ IH];
    [reflexivity|].
  cbn [map]. rewrite E, (strip_pad l (text s) r Hl Hr), IH. reflexivity.
Qed.

(** X10: whitespace added in front of or behind the text of any segment
    does not change the transcript: two sequences of segments whose
    texts differ by such padding only give the same transcript. *)
Theorem padding_does_not_change_the_transcript :
  forall rt rt' audio_path model_size language segs segs' w w',
    produces rt audio_path model_size language segs ->
    produces rt' audio_path model_size language segs' ->
    Forall2 (fun s s' =>
               exists l r,
                 all_space l = true /\ all_space r = true
                 /\ text s' = l ++ text s ++ r)
            segs segs' ->
    fst (transcribe_audio rt' audio_path model_size language w')
    = fst (transcribe_audio rt audio_path model_size language w).
Proof.
  intros rt rt' audio_path model_size language segs segs' w w' H H' Hpad.
  rewrite (transcribe_audio_returns w H).
  rewrite (transcribe_audio_returns w' H'). cbn [fst].
  unfold spec_transcript.
  rewrite (padded_texts_same_parts Hpad). reflexivity.
Qed.

Lemma padding_does_not_change_the_transcript_sample :
  fst (transcribe_audio (stub_runtime [py " Hello" ++ [10%N]; py "  world"])
         (py "sample.wav") (py "base") (py "en") initial_world)
  = fst (transcribe_audio (stub_runtime [py "Hello"; py "world"])
           (py "sample.wav") (py "base") (py "en") initial_world).
Proof.
  apply (@padding_does_not_change_the_transcript
           (stub_runtime [py "Hello"; py "world"])
           (stub_runtime [py " Hello" ++ [10%N]; py "  world"])
           (py "sample.wav") (py "base") (py "en")
           [{| text := py "Hello" |}; {| text := py "world" |}]
           [{| text := py " Hello" ++ [10%N] |}; {| text := py "  world" |}]
           initial_world initial_world).
  - exact (stub_produces [py "Hello"; py "world"] _ _ _).
  - exact (stub_produces [py " Hello" ++ [10%N]; py "  world"] _ _ _).
  - constructor.
    + exists (py " "), [10%N]. repeat split; reflexivity.
    + constructor; [|constructor].
      exists (py "  "), []. repeat split; reflexivity.
Defined.
